(** * nws-maubot: the weather plugin [weather/weather.py]

    A shallow embedding of the [NwsBot] plugin class: the per-invocation
    fields kept on the plugin object, the configuration lookup, the location
    resolver, the URL builder, the XML reader and the message formatter,
    followed by the properties of these functions.

    Conventions.
    - A Python [str] is a [string]; a character stands for the code point of
      the same number, so the strings covered are those of code points below
      256.
    - The plugin object's mutable fields are threaded explicitly: a method is
      a function from the object ([NwsBot]) to either a raised exception or a
      result together with the updated object.
    - The configuration object is passed to every method that reads it, so a
      configuration changed between two calls is two different arguments.
    - [yarl], [xml.etree.ElementTree] and the HTTP client are libraries the
      plugin calls; they are taken as the operations of a class ([Libs]).
      The properties are proved for all of its instances, and the worked
      examples are run on a small instance ([fixture_libs]). *)

From Stdlib Require Import Ascii String.
From stdpp Require Import base option gmap strings list.

Local Open Scope string_scope.

(** ** Python values *)

(** The line feed character, [\n] in a Python literal. *)
Definition LF : string := String "010"%char EmptyString.

(** [str.isspace] on one character: the code points below 256 that Python
    treats as whitespace (U+0009..U+000D, U+001C..U+0020, U+0085, U+00A0). *)
Definition isspace (c : ascii) : bool :=
  let n := nat_of_ascii c in
  (Nat.leb 9 n && Nat.leb n 13) || (Nat.leb 28 n && Nat.leb n 32)
  || Nat.eqb n 133 || Nat.eqb n 160.

Fixpoint lstrip (s : string) : string :=
  match s with
  | EmptyString => EmptyString
  | String c s' => if isspace c then lstrip s' else s
  end.

Fixpoint rstrip (s : string) : string :=
  match s with
  | EmptyString => EmptyString
  | String c s' =>
      match rstrip s' with
      | EmptyString => if isspace c then EmptyString else String c EmptyString
      | r => String c r
      end
  end.

(** [str.strip()]: leading and trailing whitespace removed. *)
Definition strip (s : string) : string := rstrip (lstrip s).

(** Truth value of a [str]: false exactly for the empty string. *)
Definition str_truthy (s : string) : bool :=
  match s with EmptyString => false | String _ _ => true end.

(** The values a configuration entry holds once the YAML file is loaded. *)
Inductive py_value : Type :=
  | PNone
  | PBool (b : bool)
  | PInt (z : Z)
  | PStr (s : string).

(** Truth value of a configuration entry, as [if self.config[...]] tests it. *)
Definition truthy (v : py_value) : bool :=
  match v with
  | PNone => false
  | PBool b => b
  | PInt z => negb (Z.eqb z 0)
  | PStr s => str_truthy s
  end.

(** How an f-string renders a value that is a [str] or [None]. *)
Definition py_format (v : option string) : string :=
  match v with
  | Some s => s
  | None => "None"
  end.

(** ** Exceptions and the method monad *)

Inductive exn : Type :=
  | AttributeError  (* [.strip()] on a value that is not a [str] *)
  | ParseError      (* [ET.fromstring] on text that is not well-formed *)
  | FetchError.     (* the HTTP client failed *)

Inductive result (A : Type) : Type :=
  | Ok (a : A)
  | Raise (e : exn).
Arguments Ok {A} a.
Arguments Raise {A} e.

(** The fields of the plugin object that the methods read and write. *)
Record NwsBot : Type := mkNwsBot {
  _stored_language : string;
  _stored_location : string;
  _stored_units : string
}.

Definition set_stored_location (v : string) (self : NwsBot) : NwsBot :=
  {| _stored_language := _stored_language self;
     _stored_location := v;
     _stored_units := _stored_units self |}.

(** A method body: it runs on the object and raises, or returns a value and
    the object as it left it. *)
Definition M (A : Type) : Type := NwsBot -> result (A * NwsBot).

Definition ret {A} (a : A) : M A := fun self => Ok (a, self).

Definition bind {A B} (m : M A) (k : A -> M B) : M B :=
  fun self =>
    match m self with
    | Ok (a, self') => k a self'
    | Raise e => Raise e
    end.

Definition lift {A} (r : result A) : M A :=
  fun self =>
    match r with
    | Ok a => Ok (a, self)
    | Raise e => Raise e
    end.

Definition get_self : M NwsBot := fun self => Ok (self, self).
Definition put_self (self' : NwsBot) : M unit := fun _ => Ok (tt, self').

Declare Scope method_scope.
Delimit Scope method_scope with method.
Notation "x <- m ;; k" := (bind m (fun x => k))
  (at level 100, m at next level, right associativity) : method_scope.
Notation "m ;;; k" := (bind m (fun _ => k))
  (at level 100, right associativity) : method_scope.

(** ** Configuration *)

(** [self.config[name]]: the entry stored under [name], [None] when the key
    is absent. *)
Definition config_get (config : gmap string py_value) (name : string) : py_value :=
  default PNone (config !! name).

(** [_config_value]: the entry stripped, or the empty string for [None]. *)
Definition _config_value (config : gmap string py_value) (name : string)
  : result string :=
  match config_get config name with
  | PNone => Ok ""
  | PStr s => Ok (strip s)
  | PBool _ | PInt _ => Raise AttributeError
  end.

(** ** The per-invocation fields *)

Definition _service_url : string := "https://w1.weather.gov/xml/current_obs".

Definition _reset_stored_values : M unit :=
  put_self
    {| _stored_language := ""; _stored_location := ""; _stored_units := "" |}.

(** [_location]: resolve and store the location unless one is stored. *)
Definition _location (config : gmap string py_value) (location : string)
  : M string :=
  (self <- get_self ;;
   (if String.eqb (_stored_location self) ""
    then
      let location := strip location in
      chosen <- (if str_truthy location then ret location
                 else lift (_config_value config "default_location")) ;;
      put_self (set_stored_location (strip chosen) self)
    else ret tt) ;;;
   self <- get_self ;;
   ret (_stored_location self))%method.

(** [_options]: the query parameters derived from the stored fields. *)
Definition _options (self : NwsBot) : gmap string string :=
  let options : gmap string string := ∅ in
  let options :=
    if str_truthy (_stored_language self)
    then <["lang" := _stored_language self]> options else options in
  let options :=
    if str_truthy (_stored_units self)
    then <[_stored_units self := ""]> options else options in
  options.

(** ** The libraries the plugin calls *)

(** An element of [xml.etree.ElementTree]: its tag, attributes, the text
    before its first child ([None] when there is none), the text after its
    end tag, and its child elements in document order. *)
#[warnings="-register-all"]
Inductive Element : Type :=
  mkElement (tag : string) (attrib : list (string * string))
            (text : option string) (tail : option string)
            (children : list Element).

Definition tag (e : Element) : string :=
  match e with mkElement t _ _ _ _ => t end.
Definition text (e : Element) : option string :=
  match e with mkElement _ _ x _ _ => x end.
Definition children (e : Element) : list Element :=
  match e with mkElement _ _ _ _ l => l end.

(** What the plugin imports and does not define:
    - [URL s] is [yarl.URL(s)] and [URL_str u] is [str(u)], the text of
      the URL after yarl's normalisation;
    - [fromstring] is [ET.fromstring]: the root element of a well-formed
      document, [ParseError] otherwise;
    - [http_get] is [self.http.get(url)] followed by [response.text()]:
      the body of the response, or the client's failure. *)
Class Libs : Type := {
  yarl_URL : Type;
  URL : string -> yarl_URL;
  URL_str : yarl_URL -> string;
  fromstring : string -> result Element;
  http_get : string -> result string
}.

Section Plugin.
Context `{Libs}.

(** ** The URL builder *)

Definition _base_url (config : gmap string py_value) : M yarl_URL :=
  (location <- _location config "" ;;
   ret (URL (_service_url +:+ "/" +:+ location +:+ ".xml")))%method.

Definition _url (config : gmap string py_value) : M string :=
  (base <- _base_url config ;;
   ret (URL_str base))%method.

(** ** The message formatter *)

(** [_message]: the content, followed by the link when [show_link] is set.
    (The [location_match] the source computes first is never used.) *)
Definition _message (config : gmap string py_value) (content : string)
  : M string :=
  (let message := content in
   if truthy (config_get config "show_link")
   then
     url <- _url config ;;
     ret (message +:+ LF +:+ LF +:+ "([weather.gov](" +:+ url +:+ "))")
   else ret message)%method.

(** ** The XML reader *)

(** One turn of the loop of [_parse_xml] over the children of the root. *)
Definition wx_step (wxdict : gmap string (option string)) (child : Element)
  : gmap string (option string) :=
  if String.eqb (tag child) "image" then wxdict
  else if String.eqb (tag child) "observation_time" then wxdict
  else <[tag child := text child]> wxdict.

Definition _parse_xml (xmldata : string)
  : result (gmap string (option string)) :=
  match fromstring xmldata with
  | Raise e => Raise e
  | Ok tree => Ok (foldl wx_step ∅ (children tree))
  end.

(** ** The command handler *)

(** [wxdata.get(key)]: the stored value, [None] when the key is missing. *)
Definition dict_get (wxdata : gmap string (option string)) (key : string)
  : option string :=
  default None (wxdata !! key).

(** The text of the f-string of [weather_handler], with the eight values
    already rendered. Each [\\\n] of the source is a backslash followed by a
    line feed. *)
Definition wx_template
  (station_id location weather temperature_string relative_humidity
   wind_string dewpoint_string visibility_mi : string) : string :=
  "[" +:+ station_id +:+ "] Location: " +:+ location +:+ "\" +:+ LF +:+
  "Weather: " +:+ weather +:+ "\" +:+ LF +:+
  "Temperature: " +:+ temperature_string +:+ "\" +:+ LF +:+
  "Relative Humidity: " +:+ relative_humidity +:+ "\" +:+ LF +:+
  "Wind: " +:+ wind_string +:+ "\" +:+ LF +:+
  "Dew Point: " +:+ dewpoint_string +:+ "\" +:+ LF +:+
  "Visibility (miles): " +:+ visibility_mi.

Definition wxfmt (wxdata : gmap string (option string)) : string :=
  wx_template
    (py_format (dict_get wxdata "station_id"))
    (py_format (dict_get wxdata "location"))
    (py_format (dict_get wxdata "weather"))
    (py_format (dict_get wxdata "temperature_string"))
    (py_format (dict_get wxdata "relative_humidity"))
    (py_format (dict_get wxdata "wind_string"))
    (py_format (dict_get wxdata "dewpoint_string"))
    (py_format (dict_get wxdata "visibility_mi")).

(** [weather_handler]: the value returned is the message passed to
    [evt.respond]. *)
Definition weather_handler (config : gmap string py_value) (location : string)
  : M string :=
  (_reset_stored_values ;;;
   _location config location ;;;
   url <- _url config ;;
   response_text <- lift (http_get url) ;;
   wxdata <- lift (_parse_xml response_text) ;;
   _message config (wxfmt wxdata))%method.

End Plugin.

(** ** Fixtures

    A small instance of the libraries for the worked examples: a table of
    documents with the trees [ET.fromstring] builds for them, an HTTP client
    that serves one station, and a URL type that keeps the text it is given
    (which is what yarl does for a URL made of unreserved characters, such as
    the service URL followed by a station identifier). *)

Definition leaf (t : string) (x : option string) : Element :=
  mkElement t [] x None [].

Definition ksmp_document : string :=
  "<current_observation><image><url>https://weather.gov/images/xml_logo.gif</url></image><observation_time>Last Updated on Nov 3 2026, 7:53 am CST</observation_time><station_id>KSMP</station_id><weather>Fair</weather></current_observation>".

Definition ksmp_root : Element :=
  mkElement "current_observation" [] None None
    [ mkElement "image" [] None None
        [ leaf "url" (Some "https://weather.gov/images/xml_logo.gif") ];
      leaf "observation_time" (Some "Last Updated on Nov 3 2026, 7:53 am CST");
      leaf "station_id" (Some "KSMP");
      leaf "weather" (Some "Fair") ].

Definition empty_weather_document : string :=
  "<current_observation><weather/></current_observation>".

Definition empty_weather_root : Element :=
  mkElement "current_observation" [] None None [ leaf "weather" None ].

Definition childless_document : string := "<current_observation/>".

Definition childless_root : Element :=
  mkElement "current_observation" [] None None [].

Definition fixture_documents : list (string * Element) :=
  [ (ksmp_document, ksmp_root);
    (empty_weather_document, empty_weather_root);
    (childless_document, childless_root) ].

Fixpoint fixture_lookup (l : list (string * Element)) (s : string)
  : result Element :=
  match l with
  | [] => Raise ParseError
  | (doc, root) :: l' => if String.eqb s doc then Ok root else fixture_lookup l' s
  end.

Definition fixture_libs : Libs := {|
  yarl_URL := string;
  URL := fun s => s;
  URL_str := fun u => u;
  fromstring := fixture_lookup fixture_documents;
  http_get := fun url =>
    if String.eqb url "https://w1.weather.gov/xml/current_obs/KSMP.xml"
    then Ok ksmp_document else Raise FetchError
|}.

(** A plugin object as [_reset_stored_values] leaves it. *)
Definition fresh : NwsBot :=
  {| _stored_language := ""; _stored_location := ""; _stored_units := "" |}.

(** The number of line feeds in a text. *)
Fixpoint count_LF (s : string) : nat :=
  match s with
  | EmptyString => 0
  | String c s' =>
      if Ascii.eqb c "010"%char then S (count_LF s') else count_LF s'
  end.

(** The number of lines of a text: one more than its line feeds. *)
Definition count_lines (s : string) : nat := S (count_LF s).

(** The object with its language and units fields replaced: the two fields
    [_options] reads. *)
Definition with_options (language units : string) (self : NwsBot) : NwsBot :=
  {| _stored_language := language;
     _stored_location := _stored_location self;
     _stored_units := units |}.

(** The tags the loop of [_parse_xml] passes over. *)
Definition skipped (key : string) : bool :=
  String.eqb key "image" || String.eqb key "observation_time".

(** The last of the elements of a list that carry a given tag. *)
Definition last_child (key : string) (l : list Element) : option Element :=
  last (filter (fun child => tag child = key) l).

(** The record of the formatting example: all eight fields present. *)
Definition st_paul_record : gmap string (option string) :=
  list_to_map
    [ ("station_id", Some "KSMP"); ("location", Some "St. Paul");
      ("weather", Some "Fair"); ("temperature_string", Some "72F");
      ("relative_humidity", Some "40%"); ("wind_string", Some "Calm");
      ("dewpoint_string", Some "50F"); ("visibility_mi", Some "10") ].

(** The message for [st_paul_record], line by line. *)
Definition st_paul_message : string :=
  "[KSMP] Location: St. Paul\" +:+ LF +:+
  "Weather: Fair\" +:+ LF +:+
  "Temperature: 72F\" +:+ LF +:+
  "Relative Humidity: 40%\" +:+ LF +:+
  "Wind: Calm\" +:+ LF +:+
  "Dew Point: 50F\" +:+ LF +:+
  "Visibility (miles): 10".

(** ** Further fixtures and measures *)

(** The eight keys the f-string of [weather_handler] reads. *)
Definition wx_fields : list string :=
  [ "station_id"; "location"; "weather"; "temperature_string";
    "relative_humidity"; "wind_string"; "dewpoint_string"; "visibility_mi" ].


(** What the loop of [_parse_xml] reads of a child. *)
Definition tag_text (child : Element) : string * option string :=
  (tag child, text child).

(** The children the loop of [_parse_xml] does not pass over. *)
Definition kept_children (l : list Element) : list Element :=
  filter (fun child => skipped (tag child) = false) l.

(** The station document without its [image] and [observation_time]
    children. *)
Definition ksmp_plain_document : string :=
  "<current_observation><station_id>KSMP</station_id><weather>Fair</weather></current_observation>".

Definition ksmp_plain_root : Element :=
  mkElement "current_observation" [] None None
    [ leaf "station_id" (Some "KSMP"); leaf "weather" (Some "Fair") ].

(** The station document with another root tag, an attribute on the root, an
    [image] without children and a [weather] element holding a child element
    after its text. *)
Definition ksmp_variant_document : string :=
  "<obs version='1.0'><image/><observation_time>Last Updated on Nov 3 2026, 7:53 am CST</observation_time><station_id>KSMP</station_id><weather>Fair<icon>skc.png</icon></weather></obs>".

Definition ksmp_variant_root : Element :=
  mkElement "obs" [("version", "1.0")] None None
    [ leaf "image" None;
      leaf "observation_time" (Some "Last Updated on Nov 3 2026, 7:53 am CST");
      leaf "station_id" (Some "KSMP");
      mkElement "weather" [] (Some "Fair") None
        [ leaf "icon" (Some "skc.png") ] ].

(** The libraries of [fixture_libs] with the two further documents known to
    the parser. *)
Definition variant_libs : Libs := {|
  yarl_URL := string;
  URL := fun s => s;
  URL_str := fun u => u;
  fromstring :=
    fixture_lookup
      ((ksmp_plain_document, ksmp_plain_root)
       :: (ksmp_variant_document, ksmp_variant_root) :: fixture_documents);
  http_get := fun url =>
    if String.eqb url "https://w1.weather.gov/xml/current_obs/KSMP.xml"
    then Ok ksmp_variant_document else Raise FetchError
|}.

(** The libraries of [fixture_libs] with a service that answers every request
    with a plain-text notice. *)
Definition outage_libs : Libs := {|
  yarl_URL := string;
  URL := fun s => s;
  URL_str := fun u => u;
  fromstring := fixture_lookup fixture_documents;
  http_get := fun _ => Ok "Service Unavailable"
|}.


(** The record of the formatting example with a field the f-string does not
    read. *)
Definition st_paul_record_more : gmap string (option string) :=
  <["pressure_mb" := Some "1012.5"]> st_paul_record.

(** What the message shows for a field of the record: the text stored for
    it, and the placeholder text [None] for a field that is missing from the
    record or stored without text. *)
Definition field_or_None (wxdata : gmap string (option string))
  (key : string) : string :=
  match wxdata !! key with
  | Some (Some value) => value
  | Some None | None => "None"
  end.

(** * Properties *)

(** ** Stripping *)

Lemma lstrip_head (s : string) :
  lstrip s = "" \/ exists c t, lstrip s = String c t /\ isspace c = false.
Proof.
  induction s as [|c s IH]; simpl.
  - by left.
  - destruct (isspace c) eqn:Hc; [exact IH|].
    right. by exists c, s.
Qed.

Lemma rstrip_keeps_head (c : ascii) (t : string) :
  isspace c = false -> rstrip (String c t) = String c (rstrip t).
Proof.
  intros Hc. simpl. rewrite Hc. by destruct (rstrip t).
Qed.

Lemma rstrip_idem (s : string) : rstrip (rstrip s) = rstrip s.
Proof.
  induction s as [|c s IH]; simpl; [done|].
  destruct (rstrip s) as [|d r] eqn:Hr.
  - destruct (isspace c) eqn:Hc; simpl; [done|]. by rewrite Hc.
  - change (rstrip (String c (String d r))) with
      (match rstrip (String d r) with
       | "" => if isspace c then "" else String c ""
       | r' => String c r'
       end).
    by rewrite IH.
Qed.

Lemma strip_idem (s : string) : strip (strip s) = strip s.
Proof.
  unfold strip.
  destruct (lstrip_head s) as [->|(c & t & -> & Hc)]; [done|].
  rewrite (rstrip_keeps_head c t Hc). simpl lstrip. rewrite Hc.
  rewrite <- (rstrip_keeps_head c t Hc). apply rstrip_idem.
Qed.

Lemma str_truthy_false (s : string) : str_truthy s = false -> s = "".
Proof. by destruct s. Qed.

Lemma str_truthy_eqb (s : string) : String.eqb s "" = negb (str_truthy s).
Proof. by destruct s. Qed.

(** ** Configuration values *)

Lemma config_value_null (config : gmap string py_value) (name : string) :
  config_get config name = PNone -> _config_value config name = Ok "".
Proof. unfold _config_value. by intros ->. Qed.

Lemma config_value_str (config : gmap string py_value) (name s : string) :
  config_get config name = PStr s -> _config_value config name = Ok (strip s).
Proof. unfold _config_value. by intros ->. Qed.

(** ** The location resolver *)

(** A call that finds a location stored returns it and changes nothing. *)
Lemma location_stored (config : gmap string py_value) (location : string)
  (self : NwsBot) :
  str_truthy (_stored_location self) = true ->
  _location config location self = Ok (_stored_location self, self).
Proof.
  intros Hs. unfold _location, bind, get_self. simpl.
  rewrite str_truthy_eqb, Hs. reflexivity.
Qed.

(** A call that finds no location stored and is given one stores it
    stripped. *)
Lemma location_given (config : gmap string py_value) (location : string)
  (self : NwsBot) :
  str_truthy (_stored_location self) = false ->
  str_truthy (strip location) = true ->
  _location config location self
  = Ok (strip location, set_stored_location (strip location) self).
Proof.
  intros Hs Hl. unfold _location, bind, get_self. simpl.
  rewrite str_truthy_eqb, Hs. simpl. rewrite Hl. simpl.
  by rewrite strip_idem.
Qed.

(** A call that finds no location stored and is given none reads the
    configured default. *)
Lemma location_default (config : gmap string py_value) (location : string)
  (self : NwsBot) :
  str_truthy (_stored_location self) = false ->
  str_truthy (strip location) = false ->
  _location config location self
  = match _config_value config "default_location" with
    | Ok d => Ok (strip d, set_stored_location (strip d) self)
    | Raise e => Raise e
    end.
Proof.
  intros Hs Hl. unfold _location, bind, get_self. simpl.
  rewrite str_truthy_eqb, Hs. simpl. rewrite Hl. unfold lift.
  by destruct (_config_value config "default_location").
Qed.

(** The location a call returns is the one it leaves stored. *)
Lemma location_returns_stored (config : gmap string py_value)
  (location loc : string) (self self' : NwsBot) :
  _location config location self = Ok (loc, self') ->
  _stored_location self' = loc.
Proof.
  destruct (str_truthy (_stored_location self)) eqn:Hs.
  - rewrite (location_stored _ _ _ Hs). by intros [= <- <-].
  - destruct (str_truthy (strip location)) eqn:Hl.
    + rewrite (location_given _ _ _ Hs Hl). by intros [= <- <-].
    + rewrite (location_default _ _ _ Hs Hl).
      destruct (_config_value config "default_location"); [|done].
      by intros [= <- <-].
Qed.

(** With the configuration unchanged, a second call returns what the first
    did and leaves the object as it was, whether or not the first call stored
    a non-empty location. *)
Lemma location_again (config : gmap string py_value) (location loc : string)
  (self self' : NwsBot) :
  _location config location self = Ok (loc, self') ->
  _location config "" self' = Ok (loc, self').
Proof.
  intros Hcall.
  destruct (str_truthy loc) eqn:Hloc.
  - pose proof (location_returns_stored _ _ _ _ _ Hcall) as Hst.
    rewrite <- Hst in Hloc. rewrite (location_stored _ _ _ Hloc).
    by rewrite Hst.
  - apply str_truthy_false in Hloc as ->.
    destruct (str_truthy (_stored_location self)) eqn:Hs.
    { rewrite (location_stored _ _ _ Hs) in Hcall.
      injection Hcall as Hst _. by rewrite Hst in Hs. }
    assert (Hd : exists d, _config_value config "default_location" = Ok d
                           /\ strip d = "" /\ self' = set_stored_location "" self).
    { destruct (str_truthy (strip location)) eqn:Hl.
      - rewrite (location_given _ _ _ Hs Hl) in Hcall.
        injection Hcall as Hst _. by rewrite Hst in Hl.
      - rewrite (location_default _ _ _ Hs Hl) in Hcall.
        destruct (_config_value config "default_location") as [d|]; [|done].
        injection Hcall as Hst Hself. exists d. by rewrite Hst in Hself. }
    destruct Hd as (d & Hd & Hstrip & ->).
    rewrite location_default; [|done..].
    rewrite Hd, Hstrip. reflexivity.
Qed.

(** C2. A fresh invocation given a raw location that is non-empty once
    stripped resolves to the stripped raw location, whatever the
    configuration holds; given a raw location that is empty or only
    whitespace it resolves to the configured default, stripped. *)
Theorem location_resolution (config : gmap string py_value) (raw : string)
  (self : NwsBot) :
  (str_truthy (strip raw) = true ->
   (_reset_stored_values ;;; _location config raw)%method self
   = Ok (strip raw, set_stored_location (strip raw) fresh))
  /\
  (str_truthy (strip raw) = false ->
   forall default : string,
     config_get config "default_location" = PStr default ->
     (_reset_stored_values ;;; _location config raw)%method self
     = Ok (strip default, set_stored_location (strip default) fresh)).
Proof.
  split.
  - intros Hraw. unfold bind, _reset_stored_values, put_self.
    by apply location_given.
  - intros Hraw default Hcfg. unfold bind, _reset_stored_values, put_self.
    fold fresh. rewrite location_default; [|done..].
    rewrite (config_value_str _ _ _ Hcfg). by rewrite strip_idem.
Qed.

Lemma location_resolution_witness :
  (_reset_stored_values ;;;
   _location {["default_location" := PStr "KMSP"]} "  KSMP ")%method
     (mkNwsBot "" "KORD" "")
  = Ok ("KSMP", mkNwsBot "" "KSMP" "")
  /\
  (_reset_stored_values ;;;
   _location {["default_location" := PStr " KMSP "]} "   ")%method
     (mkNwsBot "" "KORD" "")
  = Ok ("KMSP", mkNwsBot "" "KMSP" "").
Proof.
  split.
  - apply (proj1 (location_resolution
                    {["default_location" := PStr "KMSP"]} "  KSMP "
                    (mkNwsBot "" "KORD" ""))).
    reflexivity.
  - apply (proj2 (location_resolution
                    {["default_location" := PStr " KMSP "]} "   "
                    (mkNwsBot "" "KORD" "")) eq_refl " KMSP ").
    reflexivity.
Defined.

(** An entry that is neither null nor a string has no [strip]: reading it
    raises. *)
Lemma config_value_not_str (config : gmap string py_value) (name : string) :
  (exists b, config !! name = Some (PBool b))
  \/ (exists z, config !! name = Some (PInt z)) ->
  _config_value config name = Raise AttributeError.
Proof.
  intros [[b Hk]|[z Hk]]; unfold _config_value, config_get; by rewrite Hk.
Qed.

(** C10 (as the code has it). Reading a configuration key whose entry is
    absent or null gives the empty string and does not raise; reading an
    entry that is a string gives it stripped; reading an entry that is
    neither null nor a string (a boolean, a number) raises [AttributeError];
    so an invocation with no raw location and no configured
    [default_location] resolves, without raising, to the empty location. *)
Theorem config_value_total (config : gmap string py_value) (name : string) :
  (config !! name = None \/ config !! name = Some PNone ->
   _config_value config name = Ok "")
  /\
  (forall s : string,
     config !! name = Some (PStr s) ->
     _config_value config name = Ok (strip s))
  /\
  (config !! "default_location" = None
   \/ config !! "default_location" = Some PNone ->
   forall (raw : string) (self : NwsBot),
     str_truthy (strip raw) = false ->
     (_reset_stored_values ;;; _location config raw)%method self
     = Ok ("", fresh))
  /\
  ((exists b : bool, config !! name = Some (PBool b))
   \/ (exists z : Z, config !! name = Some (PInt z)) ->
   _config_value config name = Raise AttributeError).
Proof.
  assert (Hnull : forall key,
             config !! key = None \/ config !! key = Some PNone ->
             config_get config key = PNone).
  { intros key [Hk|Hk]; unfold config_get; by rewrite Hk. }
  split; [|split; [|split]].
  - intros Hk. apply config_value_null. by apply Hnull.
  - intros s Hk. apply config_value_str. unfold config_get. by rewrite Hk.
  - intros Hk raw self Hraw. unfold bind, _reset_stored_values, put_self.
    fold fresh. rewrite location_default; [|done..].
    by rewrite (config_value_null _ _ (Hnull _ Hk)).
  - apply config_value_not_str.
Qed.

Lemma config_value_total_witness :
  _config_value {["show_link" := PBool true]} "default_location" = Ok ""
  /\ _config_value {["default_location" := PStr " KSMP "]} "default_location"
     = Ok "KSMP"
  /\ (_reset_stored_values ;;;
      _location {["default_location" := PNone]} " ")%method fresh
     = Ok ("", fresh)
  /\ _config_value {["default_location" := PInt 55101]} "default_location"
     = Raise AttributeError.
Proof.
  split; [|split; [|split]].
  - apply (proj1 (config_value_total
                    {["show_link" := PBool true]} "default_location")).
    left. reflexivity.
  - apply (proj1 (proj2 (config_value_total
                    {["default_location" := PStr " KSMP "]}
                    "default_location")) " KSMP ").
    reflexivity.
  - apply (proj1 (proj2 (proj2 (config_value_total
                    {["default_location" := PNone]} "default_location")))).
    + right. reflexivity.
    + reflexivity.
  - apply (proj2 (proj2 (proj2 (config_value_total
                    {["default_location" := PInt 55101]}
                    "default_location")))).
    right. exists 55101%Z. reflexivity.
Defined.

(** The entry [show_link] of a configuration is a boolean, not null: reading
    it with [_config_value] does not give it stripped, it raises. *)
Lemma config_value_bool_raises :
  config_get {["show_link" := PBool true; "default_location" := PStr "KSMP"]}
    "show_link"
  = PBool true
  /\ _config_value
       {["show_link" := PBool true; "default_location" := PStr "KSMP"]}
       "show_link"
     = Raise AttributeError.
Proof. split; reflexivity. Qed.

(** C5 (as the code has it). Within an invocation, once a call has resolved
    a non-empty location every later call returns that location and leaves
    the object unchanged, whatever raw location it is given and whatever the
    configuration holds by then. *)
Theorem location_frozen_once_nonempty
  (config1 config2 : gmap string py_value) (raw1 raw2 loc : string)
  (self self1 : NwsBot) :
  _location config1 raw1 self = Ok (loc, self1) ->
  str_truthy loc = true ->
  _location config2 raw2 self1 = Ok (loc, self1).
Proof.
  intros Hfirst Hloc.
  pose proof (location_returns_stored _ _ _ _ _ Hfirst) as Hst.
  rewrite <- Hst in Hloc. rewrite (location_stored _ _ _ Hloc).
  by rewrite Hst.
Qed.

Lemma location_frozen_once_nonempty_witness :
  _location {["default_location" := PStr "KORD"]} "" (mkNwsBot "" "KSMP" "")
  = Ok ("KSMP", mkNwsBot "" "KSMP" "").
Proof.
  apply (location_frozen_once_nonempty
           {["default_location" := PStr "KMSP"]}
           {["default_location" := PStr "KORD"]}
           " KSMP" "" "KSMP" fresh (mkNwsBot "" "KSMP" "")).
  - reflexivity.
  - reflexivity.
Defined.

(** An empty resolution is not kept: with no raw location and an empty
    configured default the first call returns the empty location and leaves
    the object fresh, and a second call made after the default has become
    [KSMP] returns [KSMP]. *)
Lemma location_empty_not_frozen :
  exists self1 : NwsBot,
    _location {["default_location" := PStr ""]} "" fresh = Ok ("", self1)
    /\ _location {["default_location" := PStr "KSMP"]} "" self1
       = Ok ("KSMP", mkNwsBot "" "KSMP" "").
Proof. exists fresh. split; reflexivity. Qed.

(** The resolver neither reads nor writes the language and units fields. *)
Lemma location_with_options (config : gmap string py_value)
  (location language units : string) (self : NwsBot) :
  _location config location (with_options language units self)
  = match _location config location self with
    | Ok (loc, self') => Ok (loc, with_options language units self')
    | Raise e => Raise e
    end.
Proof.
  unfold _location, bind, get_self, lift, put_self, ret. simpl.
  destruct (String.eqb (_stored_location self) ""); [|done].
  destruct (str_truthy (strip location)); [done|].
  by destruct (_config_value config "default_location").
Qed.

(** ** Counting lines *)

Lemma count_LF_app (s t : string) :
  count_LF (s +:+ t) = count_LF s + count_LF t.
Proof.
  induction s as [|c s IH]; simpl; [done|].
  destruct (Ascii.eqb c "010"%char); simpl; by rewrite IH.
Qed.

Section PluginProperties.
Context `{Libs}.

(** ** The URL builder *)

Lemma url_unfold (config : gmap string py_value) (self : NwsBot) :
  _url config self
  = match _location config "" self with
    | Ok (loc, self') =>
        Ok (URL_str (URL (_service_url +:+ "/" +:+ loc +:+ ".xml")), self')
    | Raise e => Raise e
    end.
Proof.
  unfold _url, _base_url, bind, ret.
  by destruct (_location config "" self) as [[loc self']|e].
Qed.

(** C1 (as the code has it). The URL built is the text yarl gives for
    [<service URL>/<location>.xml], where the location is the one the
    resolver returns; the option set is not consulted, so the same URL is
    built whatever the language and units are and no query parameter is
    appended. *)
Theorem url_of_location (config : gmap string py_value) (loc : string)
  (self self' : NwsBot) :
  _location config "" self = Ok (loc, self') ->
  _url config self
  = Ok (URL_str (URL (_service_url +:+ "/" +:+ loc +:+ ".xml")), self')
  /\
  forall language units : string,
    _url config (with_options language units self)
    = Ok (URL_str (URL (_service_url +:+ "/" +:+ loc +:+ ".xml")),
          with_options language units self').
Proof.
  intros Hloc. split.
  - by rewrite url_unfold, Hloc.
  - intros language units.
    by rewrite url_unfold, location_with_options, Hloc.
Qed.

(** With the station [KSMP] stored, the URL is yarl's text for the service
    URL followed by [/KSMP.xml], with [lang] set as without. *)
Lemma url_ksmp (config : gmap string py_value) (language units : string) :
  _url config (mkNwsBot language "KSMP" units)
  = Ok (URL_str (URL "https://w1.weather.gov/xml/current_obs/KSMP.xml"),
        mkNwsBot language "KSMP" units).
Proof. reflexivity. Qed.

(** After a call of the resolver, the URL is built from the location that
    call returned, and building it leaves the object unchanged. *)
Lemma url_after_location (config : gmap string py_value)
  (location loc : string) (self self' : NwsBot) :
  _location config location self = Ok (loc, self') ->
  _url config self'
  = Ok (URL_str (URL (_service_url +:+ "/" +:+ loc +:+ ".xml")), self').
Proof.
  intros Hloc. rewrite url_unfold.
  by rewrite (location_again _ _ _ _ _ Hloc).
Qed.

(** ** The message formatter *)

(** [_message] by cases on [show_link], before the URL builder is run. *)
Lemma message_link_aux (config : gmap string py_value) (content : string)
  (self : NwsBot) :
  (truthy (config_get config "show_link") = true ->
   _message config content self
   = match _url config self with
     | Ok (url, self') =>
         Ok (content +:+ LF +:+ LF +:+ "([weather.gov](" +:+ url +:+ "))",
             self')
     | Raise e => Raise e
     end)
  /\
  (truthy (config_get config "show_link") = false ->
   _message config content self = Ok (content, self)).
Proof.
  split; intros Hlink; unfold _message; rewrite Hlink; [|done].
  unfold bind, ret. by destruct (_url config self) as [[url self']|e].
Qed.

(** C9. With [show_link] set, the message is the content, an empty line, and
    the line [([weather.gov](<URL>))] holding the request URL; with
    [show_link] unset, the message is the content and nothing else. *)
Theorem message_link (config : gmap string py_value) (content : string)
  (self : NwsBot) :
  (truthy (config_get config "show_link") = true ->
   forall (url : string) (self' : NwsBot),
     _url config self = Ok (url, self') ->
     _message config content self
     = Ok (content +:+ LF +:+ LF +:+ "([weather.gov](" +:+ url +:+ "))",
           self'))
  /\
  (truthy (config_get config "show_link") = false ->
   _message config content self = Ok (content, self)).
Proof.
  split.
  - intros Hlink url self' Hurl.
    by rewrite (proj1 (message_link_aux config content self) Hlink), Hurl.
  - apply message_link_aux.
Qed.

Lemma wx_template_lines (a b c d e f g h : string) :
  count_lines (wx_template a b c d e f g h)
  = 7 + (count_LF a + count_LF b + count_LF c + count_LF d
         + count_LF e + count_LF f + count_LF g + count_LF h).
Proof.
  unfold count_lines, wx_template. rewrite !count_LF_app. simpl. lia.
Qed.

(** C8 (as the code has it). For a record holding all eight fields and
    [show_link] unset, the message is exactly the fixed template filled with
    the eight values and nothing follows it. The template has seven lines,
    [station_id] and [location] sharing the first: the message has seven
    lines and one more for every line feed inside a value. *)
Theorem message_all_fields (config : gmap string py_value) (self : NwsBot)
  (wxdata : gmap string (option string)) (a b c d e f g h : string) :
  wxdata !! "station_id" = Some (Some a) ->
  wxdata !! "location" = Some (Some b) ->
  wxdata !! "weather" = Some (Some c) ->
  wxdata !! "temperature_string" = Some (Some d) ->
  wxdata !! "relative_humidity" = Some (Some e) ->
  wxdata !! "wind_string" = Some (Some f) ->
  wxdata !! "dewpoint_string" = Some (Some g) ->
  wxdata !! "visibility_mi" = Some (Some h) ->
  truthy (config_get config "show_link") = false ->
  _message config (wxfmt wxdata) self
  = Ok (wx_template a b c d e f g h, self)
  /\ count_lines (wx_template a b c d e f g h)
     = 7 + (count_LF a + count_LF b + count_LF c + count_LF d
            + count_LF e + count_LF f + count_LF g + count_LF h).
Proof.
  intros Ha Hb Hc Hd He Hf Hg Hh Hlink. split.
  - rewrite (proj2 (message_link_aux config (wxfmt wxdata) self) Hlink).
    unfold wxfmt, dict_get.
    by rewrite Ha, Hb, Hc, Hd, He, Hf, Hg, Hh.
  - apply wx_template_lines.
Qed.

End PluginProperties.

(** ** The XML reader *)

Lemma skipped_spec (key : string) :
  skipped key = true <-> key = "image" \/ key = "observation_time".
Proof.
  unfold skipped. rewrite orb_true_iff, !String.eqb_eq. tauto.
Qed.

(** One turn of the loop, seen from one key. *)
Lemma wx_step_lookup (wxdict : gmap string (option string))
  (child : Element) (key : string) :
  wx_step wxdict child !! key
  = if skipped key then wxdict !! key
    else if decide (tag child = key) then Some (text child)
    else wxdict !! key.
Proof.
  unfold wx_step.
  destruct (skipped key) eqn:Hk.
  - apply skipped_spec in Hk.
    destruct (String.eqb_spec (tag child) "image"); [done|].
    destruct (String.eqb_spec (tag child) "observation_time"); [done|].
    apply lookup_insert_ne. intros <-. tauto.
  - assert (Hnot : ~ (key = "image" \/ key = "observation_time")).
    { rewrite <- skipped_spec. by rewrite Hk. }
    destruct (decide (tag child = key)) as [Ht|Ht].
    + rewrite Ht.
      destruct (String.eqb_spec key "image"); [tauto|].
      destruct (String.eqb_spec key "observation_time"); [tauto|].
      apply lookup_insert_eq.
    + destruct (String.eqb_spec (tag child) "image"); [done|].
      destruct (String.eqb_spec (tag child) "observation_time"); [done|].
      by apply lookup_insert_ne.
Qed.

(** The whole loop, seen from one key: a skipped key keeps what it had; any
    other key holds the text of the last child carrying it, or what it had
    when no child carries it. *)
Lemma wx_loop_lookup (l : list Element) (wxdict : gmap string (option string))
  (key : string) :
  foldl wx_step wxdict l !! key
  = if skipped key then wxdict !! key
    else match last_child key l with
         | Some child => Some (text child)
         | None => wxdict !! key
         end.
Proof.
  revert wxdict. induction l as [|child l IH]; intros wxdict; simpl.
  - by destruct (skipped key).
  - rewrite IH, wx_step_lookup. unfold last_child.
    destruct (skipped key); [done|].
    rewrite filter_cons.
    destruct (decide (tag child = key)) as [Ht|Ht]; [|done].
    rewrite last_cons.
    by destruct (last (filter (fun c => tag c = key) l)).
Qed.

Section XmlReader.
Context `{Libs}.

Lemma parse_xml_ok (xmldata : string) (root : Element) :
  fromstring xmldata = Ok root ->
  _parse_xml xmldata = Ok (foldl wx_step ∅ (children root)).
Proof. unfold _parse_xml. by intros ->. Qed.

Lemma parse_xml_raise (xmldata : string) (e : exn) :
  fromstring xmldata = Raise e -> _parse_xml xmldata = Raise e.
Proof. unfold _parse_xml. by intros ->. Qed.

(** C3. For a document whose root is [root], the reader returns a record in
    which [image] and [observation_time] are absent and every other tag maps
    to the text of the last direct child of the root carrying it (and is
    absent when no child carries it). A root whose children are [image],
    [observation_time], [station_id] with text [KSMP] and [weather] with text
    [Fair] gives exactly the two entries [station_id: KSMP] and
    [weather: Fair]; a root with no children gives the empty record. *)
Theorem parse_xml_children (xmldata : string) (root : Element) :
  fromstring xmldata = Ok root ->
  exists wxdict : gmap string (option string),
    _parse_xml xmldata = Ok wxdict
    /\ (forall key : string,
          wxdict !! key
          = if skipped key then None
            else text <$> last_child key (children root))
    /\ (forall i o s w : Element,
          children root = [i; o; s; w] ->
          tag i = "image" -> tag o = "observation_time" ->
          tag s = "station_id" -> text s = Some "KSMP" ->
          tag w = "weather" -> text w = Some "Fair" ->
          wxdict = {[ "station_id" := Some "KSMP"; "weather" := Some "Fair" ]})
    /\ (children root = [] -> wxdict = ∅).
Proof.
  intros Hroot. exists (foldl wx_step ∅ (children root)).
  split; [by apply parse_xml_ok|]. split; [|split].
  - intros key. rewrite wx_loop_lookup, lookup_empty.
    destruct (skipped key); [done|].
    by destruct (last_child key (children root)).
  - intros i o s w -> Hi Ho Hs Hst Hw Hwt. simpl.
    unfold wx_step. rewrite Hi, Ho, Hs, Hst, Hw, Hwt. simpl.
    apply insert_insert_ne. done.
  - by intros ->.
Qed.

(** C4. Text that is not well-formed XML makes the reader fail with the
    parser's error and return no record; whenever the reader does return a
    record, the text was a well-formed document and the record is the one
    built from all the children of its root. *)
Theorem parse_xml_malformed (xmldata : string) :
  (fromstring xmldata = Raise ParseError ->
   _parse_xml xmldata = Raise ParseError)
  /\
  (forall wxdict : gmap string (option string),
     _parse_xml xmldata = Ok wxdict ->
     exists root : Element,
       fromstring xmldata = Ok root
       /\ wxdict = foldl wx_step ∅ (children root)).
Proof.
  split.
  - apply parse_xml_raise.
  - intros wxdict. unfold _parse_xml.
    destruct (fromstring xmldata) as [root|e]; [|done].
    intros [= <-]. by exists root.
Qed.

(** C6 (as the code has it). For a well-formed document, every value stored
    in the record is the [text] of a direct child of the root carrying that
    tag, exactly as the parser delivers it: a string, or [None] for a child
    with no text. No value is converted. *)
Theorem parse_xml_values (xmldata : string) (root : Element) :
  fromstring xmldata = Ok root ->
  exists wxdict : gmap string (option string),
    _parse_xml xmldata = Ok wxdict
    /\ forall (key : string) (value : option string),
         wxdict !! key = Some value ->
         exists child : Element,
           child ∈ children root /\ tag child = key /\ text child = value.
Proof.
  intros Hroot. exists (foldl wx_step ∅ (children root)).
  split; [by apply parse_xml_ok|].
  intros key value. rewrite wx_loop_lookup, lookup_empty.
  destruct (skipped key); [done|].
  destruct (last_child key (children root)) as [child|] eqn:Hlast; [|done].
  intros [= <-]. exists child.
  apply last_Some_elem_of in Hlast.
  apply list_elem_of_filter in Hlast as [Htag Hin]. done.
Qed.

End XmlReader.

(** ** The command handler *)

Section Handler.
Context `{Libs}.

(** A key the record lacks is rendered as the text [None]. *)
Lemma missing_field_rendered (wxdata : gmap string (option string))
  (key : string) :
  wxdata !! key = None -> py_format (dict_get wxdata key) = "None".
Proof. unfold dict_get. by intros ->. Qed.

(** What the f-string puts in the place of a field. *)
Lemma format_field (wxdata : gmap string (option string)) (key : string) :
  py_format (dict_get wxdata key) = field_or_None wxdata key.
Proof.
  unfold dict_get, field_or_None. by destruct (wxdata !! key) as [[value|]|].
Qed.

(** C7. When the location resolves, the fetch returns a body and the body is
    a well-formed document, the handler completes and responds with a
    message, whichever of the eight fields the document lacks. The message
    is the seven lines written out below (followed by the link when
    [show_link] is set), in which every field the record holds with a text
    shows that text and every field the record lacks shows the placeholder
    text [None]. *)
Theorem handler_missing_fields (config : gmap string py_value)
  (raw loc body : string) (self self1 : NwsBot) (root : Element) :
  (_reset_stored_values ;;; _location config raw)%method self
  = Ok (loc, self1) ->
  http_get (URL_str (URL (_service_url +:+ "/" +:+ loc +:+ ".xml")))
  = Ok body ->
  fromstring body = Ok root ->
  exists (wxdata : gmap string (option string)) (message : string),
    _parse_xml body = Ok wxdata
    /\ weather_handler config raw self = Ok (message, self1)
    /\ (let content :=
          "[" +:+ field_or_None wxdata "station_id"
          +:+ "] Location: " +:+ field_or_None wxdata "location"
          +:+ "\" +:+ LF +:+
          "Weather: " +:+ field_or_None wxdata "weather"
          +:+ "\" +:+ LF +:+
          "Temperature: " +:+ field_or_None wxdata "temperature_string"
          +:+ "\" +:+ LF +:+
          "Relative Humidity: " +:+ field_or_None wxdata "relative_humidity"
          +:+ "\" +:+ LF +:+
          "Wind: " +:+ field_or_None wxdata "wind_string"
          +:+ "\" +:+ LF +:+
          "Dew Point: " +:+ field_or_None wxdata "dewpoint_string"
          +:+ "\" +:+ LF +:+
          "Visibility (miles): " +:+ field_or_None wxdata "visibility_mi" in
        message
        = if truthy (config_get config "show_link")
          then content +:+ LF +:+ LF +:+ "([weather.gov]("
               +:+ URL_str (URL (_service_url +:+ "/" +:+ loc +:+ ".xml"))
               +:+ "))"
          else content)
    /\ (forall key : string,
          wxdata !! key = None -> field_or_None wxdata key = "None")
    /\ (forall key value : string,
          wxdata !! key = Some (Some value) ->
          field_or_None wxdata key = value).
Proof.
  intros Hloc Hget Hroot.
  set (url := URL_str (URL (_service_url +:+ "/" +:+ loc +:+ ".xml"))) in *.
  exists (foldl wx_step ∅ (children root)).
  exists (if truthy (config_get config "show_link")
          then wxfmt (foldl wx_step ∅ (children root)) +:+ LF +:+ LF
               +:+ "([weather.gov](" +:+ url +:+ "))"
          else wxfmt (foldl wx_step ∅ (children root))).
  split; [by apply parse_xml_ok|]. split; [|split; [|split]].
  - unfold bind, _reset_stored_values, put_self in Hloc.
    pose proof (url_after_location _ _ _ _ _ Hloc) as Hurl. fold url in Hurl.
    unfold weather_handler, bind, _reset_stored_values, put_self.
    rewrite Hloc, Hurl. unfold lift. rewrite Hget.
    rewrite (parse_xml_ok _ _ Hroot).
    destruct (truthy (config_get config "show_link")) eqn:Hlink.
    + by rewrite (proj1 (message_link_aux _ _ _) Hlink), Hurl.
    + by rewrite (proj2 (message_link_aux _ _ _) Hlink).
  - cbv zeta. unfold wxfmt, wx_template. by rewrite !format_field.
  - intros key Hkey. unfold field_or_None. by rewrite Hkey.
  - intros key value Hkey. unfold field_or_None. by rewrite Hkey.
Qed.

End Handler.

(** ** Worked examples on the fixtures *)

Lemma url_of_location_witness :
  @_url fixture_libs ∅ (mkNwsBot "" "KSMP" "")
  = Ok ("https://w1.weather.gov/xml/current_obs/KSMP.xml",
        mkNwsBot "" "KSMP" "")
  /\
  forall language units : string,
    @_url fixture_libs ∅ (mkNwsBot language "KSMP" units)
    = Ok ("https://w1.weather.gov/xml/current_obs/KSMP.xml",
          mkNwsBot language "KSMP" units).
Proof.
  apply (@url_of_location fixture_libs ∅ "KSMP"
           (mkNwsBot "" "KSMP" "") (mkNwsBot "" "KSMP" "")).
  reflexivity.
Defined.

(** With the station [KSMP] and the language [en] stored, the option set is
    [{lang: en}], yet the URL built is [.../KSMP.xml], which is not
    [.../KSMP.xml?lang=en]. *)
Lemma url_drops_options :
  _options (mkNwsBot "en" "KSMP" "") = {[ "lang" := "en" ]}
  /\ @_url fixture_libs ∅ (mkNwsBot "en" "KSMP" "")
     = Ok ("https://w1.weather.gov/xml/current_obs/KSMP.xml",
           mkNwsBot "en" "KSMP" "")
  /\ String.eqb "https://w1.weather.gov/xml/current_obs/KSMP.xml"
                "https://w1.weather.gov/xml/current_obs/KSMP.xml?lang=en"
     = false.
Proof. repeat split; reflexivity. Qed.

Lemma message_link_witness :
  @_message fixture_libs {[ "show_link" := PBool true ]} "Weather: Fair"
    (mkNwsBot "" "KSMP" "")
  = Ok ("Weather: Fair" +:+ LF +:+ LF +:+
        "([weather.gov](https://w1.weather.gov/xml/current_obs/KSMP.xml))",
        mkNwsBot "" "KSMP" "")
  /\
  @_message fixture_libs {[ "show_link" := PBool false ]} "Weather: Fair"
    (mkNwsBot "" "KSMP" "")
  = Ok ("Weather: Fair", mkNwsBot "" "KSMP" "").
Proof.
  split.
  - refine (proj1 (@message_link fixture_libs {[ "show_link" := PBool true ]}
                     "Weather: Fair" (mkNwsBot "" "KSMP" "")) _
              "https://w1.weather.gov/xml/current_obs/KSMP.xml"
              (mkNwsBot "" "KSMP" "") _);
      reflexivity.
  - apply (proj2 (@message_link fixture_libs {[ "show_link" := PBool false ]}
                    "Weather: Fair" (mkNwsBot "" "KSMP" ""))).
    reflexivity.
Defined.

Lemma message_all_fields_witness :
  @_message fixture_libs {[ "show_link" := PBool false ]}
    (wxfmt st_paul_record) fresh
  = Ok (st_paul_message, fresh)
  /\ count_lines st_paul_message = 7.
Proof.
  refine (@message_all_fields fixture_libs {[ "show_link" := PBool false ]}
            fresh st_paul_record
            "KSMP" "St. Paul" "Fair" "72F" "40%" "Calm" "50F" "10"
            _ _ _ _ _ _ _ _ _);
    reflexivity.
Defined.

(** The message for the record of the formatting example, with no
    [show_link] entry at all, has seven lines, not eight. *)
Lemma message_has_seven_lines :
  exists message : string,
    @_message fixture_libs ∅ (wxfmt st_paul_record) fresh
    = Ok (message, fresh)
    /\ count_lines message = 7
    /\ Nat.eqb (count_lines message) 8 = false.
Proof. exists st_paul_message. repeat split; reflexivity. Qed.

Lemma parse_xml_children_witness :
  @_parse_xml fixture_libs ksmp_document
  = Ok {[ "station_id" := Some "KSMP"; "weather" := Some "Fair" ]}
  /\ @_parse_xml fixture_libs childless_document = Ok ∅.
Proof.
  split.
  - destruct (@parse_xml_children fixture_libs ksmp_document ksmp_root)
      as (wxdict & Hparse & _ & Hexample & _); [reflexivity|].
    rewrite Hparse. f_equal.
    by apply (Hexample _ _ _ _ eq_refl).
  - destruct (@parse_xml_children fixture_libs childless_document
                childless_root)
      as (wxdict & Hparse & _ & _ & Hempty); [reflexivity|].
    rewrite Hparse. f_equal. by apply Hempty.
Defined.

Lemma parse_xml_malformed_witness :
  @_parse_xml fixture_libs "Service Unavailable" = Raise ParseError.
Proof.
  apply (proj1 (@parse_xml_malformed fixture_libs "Service Unavailable")).
  reflexivity.
Defined.

Lemma parse_xml_values_witness :
  exists wxdict : gmap string (option string),
    @_parse_xml fixture_libs ksmp_document = Ok wxdict
    /\ forall (key : string) (value : option string),
         wxdict !! key = Some value ->
         exists child : Element,
           child ∈ children ksmp_root /\ tag child = key
           /\ text child = value.
Proof.
  apply (@parse_xml_values fixture_libs ksmp_document ksmp_root).
  reflexivity.
Defined.

(** A child with no text, [<weather/>], is stored with the value [None],
    which is not a string. *)
Lemma parse_xml_stores_none :
  @fromstring fixture_libs empty_weather_document = Ok empty_weather_root
  /\ @_parse_xml fixture_libs empty_weather_document
     = Ok {[ "weather" := None ]}.
Proof. split; reflexivity. Qed.

Lemma handler_missing_fields_witness :
  @weather_handler fixture_libs ∅ " KSMP" fresh
  = Ok ("[KSMP] Location: None\" +:+ LF +:+
        "Weather: Fair\" +:+ LF +:+
        "Temperature: None\" +:+ LF +:+
        "Relative Humidity: None\" +:+ LF +:+
        "Wind: None\" +:+ LF +:+
        "Dew Point: None\" +:+ LF +:+
        "Visibility (miles): None",
        mkNwsBot "" "KSMP" "")
  /\ @_parse_xml fixture_libs ksmp_document
     = Ok {[ "station_id" := Some "KSMP"; "weather" := Some "Fair" ]}.
Proof.
  destruct (@handler_missing_fields fixture_libs ∅ " KSMP" "KSMP"
              ksmp_document fresh (mkNwsBot "" "KSMP" "") ksmp_root)
    as (wxdata & message & Hparse & Hrun & Hmessage & _ & _);
    [reflexivity..|].
  rewrite Hrun, Hmessage.
  injection Hparse as <-. split; reflexivity.
Defined.

(** * Further properties *)

(** ** The location resolver, continued *)

(** With no location stored and none given, the raw argument plays no part:
    any two blank arguments resolve alike. *)
Lemma location_blank_args (config : gmap string py_value)
  (raw1 raw2 : string) (self : NwsBot) :
  str_truthy (_stored_location self) = false ->
  str_truthy (strip raw1) = false ->
  str_truthy (strip raw2) = false ->
  _location config raw1 self = _location config raw2 self.
Proof.
  intros Hs H1 H2. by rewrite !location_default.
Qed.

(** X1. With the configuration unchanged, a later call of the resolver that
    is given no location returns what the earlier call returned and leaves
    the object as that call left it, also when the location resolved is
    empty. *)
Theorem location_repeat (config : gmap string py_value)
  (raw raw' loc : string) (self self' : NwsBot) :
  _location config raw self = Ok (loc, self') ->
  str_truthy (strip raw') = false ->
  _location config raw' self' = Ok (loc, self').
Proof.
  intros Hcall Hblank.
  pose proof (location_again _ _ _ _ _ Hcall) as Hagain.
  destruct (str_truthy (_stored_location self')) eqn:Hs.
  - rewrite (location_stored config "" self' Hs) in Hagain.
    by rewrite (location_stored config raw' self' Hs).
  - rewrite <- Hagain. by apply location_blank_args.
Qed.

Lemma location_repeat_witness :
  _location {["default_location" := PStr "  "]} "   " fresh = Ok ("", fresh).
Proof.
  apply (location_repeat {["default_location" := PStr "  "]} " " "   " ""
           fresh fresh); reflexivity.
Defined.

(** X2. A call of the resolver that returns changes nothing of the object
    but the stored location, and the location it returns is the one it
    leaves stored. *)
Theorem location_post_state (config : gmap string py_value)
  (raw loc : string) (self self' : NwsBot) :
  _location config raw self = Ok (loc, self') ->
  self' = set_stored_location loc self.
Proof.
  destruct (str_truthy (_stored_location self)) eqn:Hs.
  - rewrite (location_stored _ _ _ Hs). intros [= <- <-]. by destruct self.
  - destruct (str_truthy (strip raw)) eqn:Hl.
    + rewrite (location_given _ _ _ Hs Hl). by intros [= <- <-].
    + rewrite (location_default _ _ _ Hs Hl).
      destruct (_config_value config "default_location"); [|done].
      by intros [= <- <-].
Qed.

Lemma location_post_state_witness :
  mkNwsBot "en" "KSMP" "m" = set_stored_location "KSMP" (mkNwsBot "en" "" "m").
Proof.
  apply (location_post_state ∅ " KSMP " "KSMP"
           (mkNwsBot "en" "" "m") (mkNwsBot "en" "KSMP" "m")).
  reflexivity.
Defined.

(** X3. The location a fresh invocation resolves carries no leading or
    trailing whitespace: stripping it again changes nothing. *)
Theorem location_stripped (config : gmap string py_value)
  (raw loc : string) (self self' : NwsBot) :
  (_reset_stored_values ;;; _location config raw)%method self
  = Ok (loc, self') ->
  strip loc = loc.
Proof.
  unfold bind, _reset_stored_values, put_self. fold fresh.
  destruct (str_truthy (strip raw)) eqn:Hl.
  - rewrite location_given; [|done..]. intros [= <- _]. apply strip_idem.
  - rewrite location_default; [|done..].
    destruct (_config_value config "default_location"); [|done].
    intros [= <- _]. apply strip_idem.
Qed.

Lemma location_stripped_witness : strip "KMSP" = "KMSP".
Proof.
  apply (location_stripped {["default_location" := PStr "  KMSP "]} " " "KMSP"
           (mkNwsBot "" "KORD" "") (mkNwsBot "" "KMSP" "")).
  reflexivity.
Defined.

(** A blank raw location and a default that is neither null nor a string make
    a fresh resolution raise. *)
Lemma location_bad_default (config : gmap string py_value) (raw : string) :
  str_truthy (strip raw) = false ->
  (exists b, config !! "default_location" = Some (PBool b))
  \/ (exists z, config !! "default_location" = Some (PInt z)) ->
  _location config raw fresh = Raise AttributeError.
Proof.
  intros Hl Hbad. rewrite location_default; [|done..].
  by rewrite (config_value_not_str _ _ Hbad).
Qed.

(** ** The option set *)

Lemma options_lookup_aux (self : NwsBot) (key : string) :
  _options self !! key
  = if str_truthy (_stored_units self) && String.eqb key (_stored_units self)
    then Some ""
    else if str_truthy (_stored_language self) && String.eqb key "lang"
         then Some (_stored_language self)
         else None.
Proof.
  unfold _options.
  destruct (str_truthy (_stored_units self)); simpl.
  - destruct (String.eqb_spec key (_stored_units self)) as [->|Hne].
    + apply lookup_insert_eq.
    + rewrite lookup_insert_ne; [|done].
      destruct (str_truthy (_stored_language self)); simpl; [|done].
      destruct (String.eqb_spec key "lang") as [->|Hne'].
      * apply lookup_insert_eq.
      * by rewrite lookup_insert_ne.
  - destruct (str_truthy (_stored_language self)); simpl; [|done].
    destruct (String.eqb_spec key "lang") as [->|Hne'].
    + apply lookup_insert_eq.
    + by rewrite lookup_insert_ne.
Qed.

(** X6. The option set holds the units name with the empty value when units
    are stored, [lang] with the stored language when a language is stored and
    the units name is not [lang] itself, and nothing else; a units name equal
    to [lang] overwrites the language entry. *)
Theorem options_lookup (self : NwsBot) (key : string) :
  _options self !! key
  = if str_truthy (_stored_units self) && String.eqb key (_stored_units self)
    then Some ""
    else if str_truthy (_stored_language self) && String.eqb key "lang"
         then Some (_stored_language self)
         else None.
Proof. apply options_lookup_aux. Qed.

(** X7. The option set is empty exactly when neither a language nor units
    are stored. *)
Theorem options_empty_iff (self : NwsBot) :
  _options self = ∅
  <-> _stored_language self = "" /\ _stored_units self = "".
Proof.
  split.
  - intros Hempty.
    pose proof (options_lookup_aux self) as Hlook. rewrite Hempty in Hlook.
    split.
    + specialize (Hlook "lang"). rewrite lookup_empty in Hlook.
      destruct (_stored_language self); [done|].
      rewrite String.eqb_refl, andb_true_r in Hlook.
      by destruct (str_truthy (_stored_units self)
                   && String.eqb "lang" (_stored_units self)).
    + specialize (Hlook (_stored_units self)). rewrite lookup_empty in Hlook.
      rewrite String.eqb_refl, andb_true_r in Hlook.
      by destruct (_stored_units self).
  - intros [Hl Hu]. unfold _options. by rewrite Hl, Hu.
Qed.

Lemma options_empty_iff_witness : _options (mkNwsBot "" "KSMP" "") = ∅.
Proof.
  apply (proj2 (options_empty_iff (mkNwsBot "" "KSMP" ""))).
  split; reflexivity.
Defined.

(** The resolver reads nothing of the configuration but the entry
    [default_location]. *)
Lemma location_config_frame (config1 config2 : gmap string py_value)
  (raw : string) (self : NwsBot) :
  config_get config1 "default_location" = config_get config2 "default_location" ->
  _location config1 raw self = _location config2 raw self.
Proof.
  intros Hsame. unfold _location, _config_value. by rewrite Hsame.
Qed.

(** ** The XML reader, continued *)

Lemma wx_step_tag_text (wxdict : gmap string (option string))
  (child1 child2 : Element) :
  tag_text child1 = tag_text child2 ->
  wx_step wxdict child1 = wx_step wxdict child2.
Proof.
  unfold tag_text, wx_step. by intros [= -> ->].
Qed.

Lemma wx_step_skipped (wxdict : gmap string (option string))
  (child : Element) :
  skipped (tag child) = true -> wx_step wxdict child = wxdict.
Proof.
  unfold skipped, wx_step.
  destruct (String.eqb (tag child) "image"); [done|].
  by destruct (String.eqb (tag child) "observation_time").
Qed.

Lemma wx_step_kept (wxdict : gmap string (option string))
  (child : Element) :
  skipped (tag child) = false ->
  wx_step wxdict child = <[tag child := text child]> wxdict.
Proof.
  unfold skipped, wx_step.
  destruct (String.eqb (tag child) "image"); [done|].
  by destruct (String.eqb (tag child) "observation_time").
Qed.

(** The children the loop passes over leave no trace. *)
Lemma wx_loop_kept (l : list Element) (wxdict : gmap string (option string)) :
  foldl wx_step wxdict (kept_children l) = foldl wx_step wxdict l.
Proof.
  revert wxdict. induction l as [|child l IH]; intros wxdict; [done|].
  unfold kept_children in *. rewrite filter_cons.
  destruct (decide (skipped (tag child) = false)) as [Hk|Hk]; simpl.
  - apply IH.
  - apply not_false_is_true in Hk.
    rewrite (wx_step_skipped _ _ Hk). apply IH.
Qed.

(** The loop reads only the tag and the text of each child. *)
Lemma wx_loop_tag_text (l1 l2 : list Element)
  (wxdict : gmap string (option string)) :
  tag_text <$> l1 = tag_text <$> l2 ->
  foldl wx_step wxdict l1 = foldl wx_step wxdict l2.
Proof.
  revert l2 wxdict.
  induction l1 as [|c1 l1 IH]; intros [|c2 l2] wxdict; try done.
  rewrite !fmap_cons. intros [= Hc Hl]. simpl.
  assert (Hstep : tag_text c1 = tag_text c2) by (unfold tag_text; congruence).
  rewrite (wx_step_tag_text _ _ _ Hstep). by apply IH.
Qed.

(** The loop adds at most one entry for each child it does not pass over. *)
Lemma wx_loop_size (l : list Element) (wxdict : gmap string (option string)) :
  size (foldl wx_step wxdict l) <= size wxdict + length (kept_children l).
Proof.
  revert wxdict. induction l as [|child l IH]; intros wxdict; simpl; [lia|].
  unfold kept_children in *. rewrite filter_cons.
  destruct (decide (skipped (tag child) = false)) as [Hk|Hk].
  - rewrite (wx_step_kept _ _ Hk). simpl.
    etrans; [apply IH|].
    rewrite map_size_insert. destruct (wxdict !! tag child); simpl; lia.
  - apply not_false_is_true in Hk.
    rewrite (wx_step_skipped _ _ Hk). apply IH.
Qed.


(** ** The f-string of the handler, continued *)

(** The text depends on the record only through [wxdata.get] at the eight
    field names. *)
Lemma wxfmt_ext (wxdata1 wxdata2 : gmap string (option string)) :
  (forall key : string,
     key ∈ wx_fields -> dict_get wxdata1 key = dict_get wxdata2 key) ->
  wxfmt wxdata1 = wxfmt wxdata2.
Proof.
  intros Hsame. unfold wxfmt.
  rewrite (Hsame "station_id"), (Hsame "location"), (Hsame "weather"),
    (Hsame "temperature_string"), (Hsame "relative_humidity"),
    (Hsame "wind_string"), (Hsame "dewpoint_string"), (Hsame "visibility_mi")
    by (unfold wx_fields; set_solver).
  reflexivity.
Qed.

Section FurtherProperties.
Context `{Libs}.

(** ** The URL builder, continued *)

(** The URL builder reads nothing of the configuration but the entry
    [default_location]. *)
Lemma url_config_frame (config1 config2 : gmap string py_value)
  (self : NwsBot) :
  config_get config1 "default_location" = config_get config2 "default_location" ->
  _url config1 self = _url config2 self.
Proof.
  intros Hsame.
  by rewrite !url_unfold, (location_config_frame config1 config2 "" self Hsame).
Qed.

(** X5. An invocation with a blank raw location and a default that is absent,
    null or a blank string does not fail to build a URL: the location is
    empty and the URL is yarl's text for the service URL followed by
    [/.xml]. *)
Theorem url_blank_location (config : gmap string py_value) (raw : string)
  (self : NwsBot) :
  str_truthy (strip raw) = false ->
  config_get config "default_location" = PNone
  \/ (exists d : string,
        config_get config "default_location" = PStr d
        /\ str_truthy (strip d) = false) ->
  (_reset_stored_values ;;; _location config raw ;;; _url config)%method self
  = Ok (URL_str (URL "https://w1.weather.gov/xml/current_obs/.xml"), fresh).
Proof.
  intros Hraw Hdefault.
  assert (Hd : exists d, _config_value config "default_location" = Ok d
                         /\ strip d = "").
  { destruct Hdefault as [Hnull|(d & Hstr & Hd)].
    - exists "". by rewrite (config_value_null _ _ Hnull).
    - exists (strip d). rewrite (config_value_str _ _ _ Hstr), strip_idem.
      split; [done|]. by apply str_truthy_false. }
  destruct Hd as (d & Hcfg & Hd).
  assert (Hloc : forall location,
             str_truthy (strip location) = false ->
             _location config location fresh = Ok ("", fresh)).
  { intros location Hblank. rewrite location_default; [|done..].
    by rewrite Hcfg, Hd. }
  unfold bind at 1. unfold _reset_stored_values, put_self. fold fresh.
  unfold bind. rewrite (Hloc raw Hraw).
  rewrite url_unfold, (Hloc "" eq_refl). reflexivity.
Qed.

(** X8. With the configuration unchanged, building the URL again gives the
    same URL and leaves the object as the first call left it: the URL put in
    the link is the URL that was requested. *)
Theorem url_repeat (config : gmap string py_value) (url : string)
  (self self' : NwsBot) :
  _url config self = Ok (url, self') ->
  _url config self' = Ok (url, self').
Proof.
  rewrite !url_unfold.
  destruct (_location config "" self) as [[loc self1]|e] eqn:Hloc; [|done].
  intros [= <- <-]. by rewrite (location_again _ _ _ _ _ Hloc).
Qed.

(** ** The command handler, continued *)

(** The handler step by step: it starts from a fresh object whatever object
    it is given, resolves the location, requests the URL of that location,
    parses the body and formats the record; the first step that raises ends
    it. *)
Lemma handler_run (config : gmap string py_value) (raw : string)
  (self : NwsBot) :
  weather_handler config raw self
  = match _location config raw fresh with
    | Raise e => Raise e
    | Ok (loc, self1) =>
        let url := URL_str (URL (_service_url +:+ "/" +:+ loc +:+ ".xml")) in
        match http_get url with
        | Raise e => Raise e
        | Ok body =>
            match _parse_xml body with
            | Raise e => Raise e
            | Ok wxdata =>
                if truthy (config_get config "show_link")
                then Ok (wxfmt wxdata +:+ LF +:+ LF +:+ "([weather.gov]("
                         +:+ url +:+ "))", self1)
                else Ok (wxfmt wxdata, self1)
            end
        end
    end.
Proof.
  unfold weather_handler.
  unfold bind at 1. unfold _reset_stored_values, put_self. fold fresh.
  unfold bind at 1.
  destruct (_location config raw fresh) as [[loc self1]|e] eqn:Hloc; [|done].
  pose proof (url_after_location _ _ _ _ _ Hloc) as Hurl.
  unfold bind at 1. rewrite Hurl. simpl.
  unfold bind at 1. unfold lift at 1.
  destruct (http_get _) as [body|e]; [|done].
  unfold bind. unfold lift.
  destruct (_parse_xml body) as [wxdata|e]; [|done].
  destruct (truthy (config_get config "show_link")) eqn:Hlink.
  - by rewrite (proj1 (message_link_aux _ _ _) Hlink), Hurl.
  - by rewrite (proj2 (message_link_aux _ _ _) Hlink).
Qed.

(** X9. The handler starts every invocation from reset fields: what it does
    does not depend on what an earlier invocation left on the object. *)
Theorem handler_ignores_stored (config : gmap string py_value) (raw : string)
  (self1 self2 : NwsBot) :
  weather_handler config raw self1 = weather_handler config raw self2.
Proof. by rewrite !handler_run. Qed.

(** X10. When the HTTP client fails, the handler fails with the client's
    error and responds with nothing, whatever the parser would make of any
    text. *)
Theorem handler_fetch_failure (config : gmap string py_value)
  (raw loc : string) (self self1 : NwsBot) (e : exn) :
  (_reset_stored_values ;;; _location config raw)%method self
  = Ok (loc, self1) ->
  http_get (URL_str (URL (_service_url +:+ "/" +:+ loc +:+ ".xml")))
  = Raise e ->
  weather_handler config raw self = Raise e.
Proof.
  intros Hloc Hget. unfold bind, _reset_stored_values, put_self in Hloc.
  fold fresh in Hloc. rewrite handler_run, Hloc. simpl. by rewrite Hget.
Qed.

(** X11. When the body fetched is not well-formed XML, the handler fails with
    the parser's error and responds with nothing. *)
Theorem handler_parse_failure (config : gmap string py_value)
  (raw loc body : string) (self self1 : NwsBot) (e : exn) :
  (_reset_stored_values ;;; _location config raw)%method self
  = Ok (loc, self1) ->
  http_get (URL_str (URL (_service_url +:+ "/" +:+ loc +:+ ".xml")))
  = Ok body ->
  fromstring body = Raise e ->
  weather_handler config raw self = Raise e.
Proof.
  intros Hloc Hget Hparse. unfold bind, _reset_stored_values, put_self in Hloc.
  fold fresh in Hloc. rewrite handler_run, Hloc. simpl. rewrite Hget.
  by rewrite (parse_xml_raise _ _ Hparse).
Qed.

(** X4. With a blank raw location and a [default_location] that is a boolean
    or a number, the handler raises [AttributeError], whatever the HTTP
    client and the parser would return. *)
Theorem handler_bad_default (config : gmap string py_value) (raw : string)
  (self : NwsBot) :
  str_truthy (strip raw) = false ->
  (exists b, config !! "default_location" = Some (PBool b))
  \/ (exists z, config !! "default_location" = Some (PInt z)) ->
  weather_handler config raw self = Raise AttributeError.
Proof.
  intros Hraw Hbad.
  by rewrite handler_run, (location_bad_default _ _ Hraw Hbad).
Qed.

(** X12. The handler reads two entries of the configuration, [show_link] and
    [default_location]: two configurations that agree on them give the same
    outcome. *)
Theorem handler_config_frame (config1 config2 : gmap string py_value)
  (raw : string) (self : NwsBot) :
  config_get config1 "show_link" = config_get config2 "show_link" ->
  config_get config1 "default_location" = config_get config2 "default_location" ->
  weather_handler config1 raw self = weather_handler config2 raw self.
Proof.
  intros Hlink Hdefault.
  by rewrite !handler_run, Hlink,
    (location_config_frame config1 config2 raw fresh Hdefault).
Qed.

(** X13. When the handler responds, the object holds the resolved location,
    stripped, and neither a language nor units: the option set of the
    invocation is empty. *)
Theorem handler_post_state (config : gmap string py_value) (raw message : string)
  (self self' : NwsBot) :
  weather_handler config raw self = Ok (message, self') ->
  _stored_language self' = "" /\ _stored_units self' = ""
  /\ _options self' = ∅
  /\ strip (_stored_location self') = _stored_location self'.
Proof.
  rewrite handler_run.
  destruct (_location config raw fresh) as [[loc self1]|e] eqn:Hloc; [|done].
  assert (Hself1 : self1 = set_stored_location loc fresh /\ strip loc = loc).
  { destruct (str_truthy (strip raw)) eqn:Hl.
    - rewrite location_given in Hloc; [|done..].
      injection Hloc as <- <-. by rewrite strip_idem.
    - rewrite location_default in Hloc; [|done..].
      destruct (_config_value config "default_location"); [|done].
      injection Hloc as <- <-. by rewrite strip_idem. }
  destruct Hself1 as [-> Hstrip]. simpl.
  destruct (http_get _) as [body|e]; [|done].
  destruct (_parse_xml body) as [wxdata|e]; [|done].
  destruct (truthy (config_get config "show_link")); intros [= _ <-]; done.
Qed.

End FurtherProperties.

(** ** The XML reader and the f-string, continued *)

Section FurtherReader.
Context `{Libs}.

(** X14. The record depends on a document only through the tags and texts of
    the direct children of the root that are not passed over, in their order:
    the root's own tag, text and attributes, the children tagged [image] or
    [observation_time], and everything below a child are never read. *)
Theorem parse_xml_reads_tag_text (xmldata1 xmldata2 : string)
  (root1 root2 : Element) :
  fromstring xmldata1 = Ok root1 ->
  fromstring xmldata2 = Ok root2 ->
  tag_text <$> kept_children (children root1)
  = tag_text <$> kept_children (children root2) ->
  _parse_xml xmldata1 = _parse_xml xmldata2.
Proof.
  intros H1 H2 Hsame.
  rewrite (parse_xml_ok _ _ H1), (parse_xml_ok _ _ H2). f_equal.
  rewrite <- (wx_loop_kept (children root1)), <- (wx_loop_kept (children root2)).
  by apply wx_loop_tag_text.
Qed.

(** X15. The record has at most one entry for each direct child of the root
    that is not passed over, so never more entries than the root has
    children. *)
Theorem parse_xml_size (xmldata : string) (root : Element) :
  fromstring xmldata = Ok root ->
  exists wxdict : gmap string (option string),
    _parse_xml xmldata = Ok wxdict
    /\ size wxdict <= length (kept_children (children root))
    /\ length (kept_children (children root)) <= length (children root).
Proof.
  intros Hroot. exists (foldl wx_step ∅ (children root)).
  split; [by apply parse_xml_ok|]. split.
  - pose proof (wx_loop_size (children root) ∅) as Hsize.
    by rewrite map_size_empty in Hsize.
  - apply length_filter.
Qed.


End FurtherReader.

(** X16. The text of the f-string depends on the record only through what
    [wxdata.get] returns at the eight field names: entries under any other
    key do not show. *)
Theorem wxfmt_reads_eight_fields
  (wxdata1 wxdata2 : gmap string (option string)) :
  (forall key : string,
     key ∈ wx_fields -> dict_get wxdata1 key = dict_get wxdata2 key) ->
  wxfmt wxdata1 = wxfmt wxdata2.
Proof. apply wxfmt_ext. Qed.

(** X17. A field stored with the value [None] (an element without text)
    shows exactly as a field that is missing. *)
Theorem wxfmt_none_as_missing (wxdata : gmap string (option string))
  (key : string) :
  wxfmt (<[key := None]> wxdata) = wxfmt (delete key wxdata).
Proof.
  apply wxfmt_ext. intros k _. unfold dict_get.
  destruct (decide (key = k)) as [->|Hne].
  - by rewrite lookup_insert_eq, lookup_delete_eq.
  - by rewrite lookup_insert_ne, lookup_delete_ne.
Qed.

(** X19. Given a raw location that is not blank, the handler never reads
    [default_location]: two configurations that agree on [show_link] give the
    same outcome, also when one of them holds a default that cannot be
    stripped. *)
Theorem handler_given_location (libs : Libs)
  (config1 config2 : gmap string py_value) (raw : string) (self : NwsBot) :
  str_truthy (strip raw) = true ->
  config_get config1 "show_link" = config_get config2 "show_link" ->
  @weather_handler libs config1 raw self = @weather_handler libs config2 raw self.
Proof.
  intros Hraw Hlink. rewrite !handler_run, Hlink.
  by rewrite !location_given.
Qed.

(** ** Further worked examples *)

Lemma url_blank_location_witness :
  (_reset_stored_values ;;;
   _location {["default_location" := PStr "  "]} " " ;;;
   @_url fixture_libs {["default_location" := PStr "  "]})%method
    (mkNwsBot "" "KSMP" "")
  = Ok ("https://w1.weather.gov/xml/current_obs/.xml", fresh).
Proof.
  apply (@url_blank_location fixture_libs
           {["default_location" := PStr "  "]} " " (mkNwsBot "" "KSMP" "")).
  - reflexivity.
  - right. exists "  ". split; reflexivity.
Defined.

Lemma url_repeat_witness :
  @_url fixture_libs {["default_location" := PStr "KSMP"]}
    (mkNwsBot "" "KSMP" "")
  = Ok ("https://w1.weather.gov/xml/current_obs/KSMP.xml",
        mkNwsBot "" "KSMP" "").
Proof.
  apply (@url_repeat fixture_libs {["default_location" := PStr "KSMP"]}
           "https://w1.weather.gov/xml/current_obs/KSMP.xml" fresh).
  reflexivity.
Defined.

Lemma handler_fetch_failure_witness :
  @weather_handler fixture_libs ∅ "KORD" (mkNwsBot "" "KSMP" "")
  = Raise FetchError.
Proof.
  apply (@handler_fetch_failure fixture_libs ∅ "KORD" "KORD"
           (mkNwsBot "" "KSMP" "") (mkNwsBot "" "KORD" ""));
    reflexivity.
Defined.

Lemma handler_parse_failure_witness :
  @weather_handler outage_libs ∅ "KSMP" fresh = Raise ParseError.
Proof.
  apply (@handler_parse_failure outage_libs ∅ "KSMP" "KSMP"
           "Service Unavailable" fresh (mkNwsBot "" "KSMP" ""));
    reflexivity.
Defined.

Lemma handler_bad_default_witness :
  @weather_handler fixture_libs {["default_location" := PBool true]} " " fresh
  = Raise AttributeError.
Proof.
  apply (@handler_bad_default fixture_libs
           {["default_location" := PBool true]} " " fresh).
  - reflexivity.
  - left. exists true. reflexivity.
Defined.

Lemma handler_config_frame_witness :
  @weather_handler fixture_libs
    {["show_link" := PBool true; "default_units" := PStr "M";
      "default_language" := PStr "fr"; "show_image" := PBool true]}
    "KSMP" fresh
  = @weather_handler fixture_libs {["show_link" := PBool true]} "KSMP" fresh.
Proof.
  apply (@handler_config_frame fixture_libs); reflexivity.
Defined.

Lemma handler_post_state_witness :
  _stored_language (mkNwsBot "" "KSMP" "") = ""
  /\ _stored_units (mkNwsBot "" "KSMP" "") = ""
  /\ _options (mkNwsBot "" "KSMP" "") = ∅
  /\ strip (_stored_location (mkNwsBot "" "KSMP" ""))
     = _stored_location (mkNwsBot "" "KSMP" "").
Proof.
  apply (@handler_post_state fixture_libs ∅ " KSMP "
           (wx_template "KSMP" "None" "Fair" "None" "None" "None" "None" "None")
           (mkNwsBot "en" "KORD" "m") (mkNwsBot "" "KSMP" "")).
  reflexivity.
Defined.

Lemma parse_xml_reads_tag_text_witness :
  @_parse_xml variant_libs ksmp_document
  = @_parse_xml variant_libs ksmp_variant_document.
Proof.
  apply (@parse_xml_reads_tag_text variant_libs ksmp_document
           ksmp_variant_document ksmp_root ksmp_variant_root);
    reflexivity.
Defined.

Lemma parse_xml_size_witness :
  exists wxdict : gmap string (option string),
    @_parse_xml fixture_libs ksmp_document = Ok wxdict
    /\ size wxdict <= 2 /\ 2 <= 4.
Proof.
  apply (@parse_xml_size fixture_libs ksmp_document ksmp_root).
  reflexivity.
Defined.


Lemma wxfmt_reads_eight_fields_witness :
  wxfmt st_paul_record_more = wxfmt st_paul_record.
Proof.
  apply (wxfmt_reads_eight_fields st_paul_record_more st_paul_record).
  intros key Hin. unfold wx_fields in Hin.
  repeat (apply elem_of_cons in Hin as [->|Hin]; [reflexivity|]).
  by apply elem_of_nil in Hin.
Defined.

Lemma handler_given_location_witness :
  @weather_handler fixture_libs {["default_location" := PBool true]} "KSMP" fresh
  = @weather_handler fixture_libs ∅ "KSMP" fresh.
Proof.
  apply (handler_given_location fixture_libs); reflexivity.
Defined.
